(** * Row import of the [datasets] app (django-import-export resources)

    Shallow embedding of [datasets/admin.py] and [datasets/models.py]:
    the widgets [PositiveIntegerWidget] and [AuthorForeignKeyWidget],
    the hooks of [BookResource] ([before_import_row], [after_import_row])
    and [Book.full_clean].  The ORM is an explicit record store threaded
    through a small state-and-exception monad. *)

From Stdlib Require Import ZArith List String Ascii Bool Lia.
Import ListNotations.
Open Scope string_scope.
Open Scope Z_scope.
Open Scope list_scope.

(** ** Python values *)

(** A Python [str] is its sequence of code points. *)
Definition pystr := list Z.

Fixpoint of_ascii (s : string) : pystr :=
  match s with
  | EmptyString => []
  | String c r => Z.of_nat (nat_of_ascii c) :: of_ascii r
  end.
Arguments of_ascii s%_string_scope.

Fixpoint pystr_eqb (a b : pystr) : bool :=
  match a, b with
  | [], [] => true
  | x :: a', y :: b' => (x =? y) && pystr_eqb a' b'
  | _, _ => false
  end.

(** Cell values as a tabular dataset hands them over. *)
Inductive pyval :=
| PyNone
| PyStr (s : pystr)
| PyInt (z : Z).

(** [bool(v)] *)
Definition truthy (v : pyval) : bool :=
  match v with
  | PyNone => false
  | PyStr s => match s with [] => false | _ => true end
  | PyInt z => negb (z =? 0)
  end.

Definition pyval_eqb (a b : pyval) : bool :=
  match a, b with
  | PyNone, PyNone => true
  | PyStr x, PyStr y => pystr_eqb x y
  | PyInt x, PyInt y => x =? y
  | _, _ => false
  end.

(** Decimal digits of a natural number, most significant first. *)
Fixpoint digits_rev (fuel : nat) (n : Z) : pystr :=
  match fuel with
  | O => []
  | S f => if n <? 10 then [48 + n] else (48 + n mod 10) :: digits_rev f (n / 10)
  end.

(** [str(v)] *)
Definition py_str (v : pyval) : pystr :=
  match v with
  | PyNone => of_ascii "None"
  | PyStr s => s
  | PyInt z =>
      let d := rev (digits_rev (S (Z.to_nat (Z.log2_up (Z.abs z + 1)))) (Z.abs z)) in
      if z <? 0 then 45 :: d else d
  end.

(** A raw row: the dict from column name to cell value (insertion ordered,
    keys unique). *)
Definition Row := list (string * pyval).

(** [row.get(k)] *)
Fixpoint row_get (k : string) (r : Row) : option pyval :=
  match r with
  | [] => None
  | (k', v) :: r' => if String.eqb k k' then Some v else row_get k r'
  end.
Arguments row_get k%_string_scope r.

(** [row[k] = v]: replaces the value in place, or appends a new key. *)
Fixpoint row_set (k : string) (v : pyval) (r : Row) : Row :=
  match r with
  | [] => [(k, v)]
  | (k', v') :: r' => if String.eqb k k' then (k', v) :: r' else (k', v') :: row_set k v r'
  end.
Arguments row_set k%_string_scope v r.

(** ** [str.encode()]: UTF-8, strict error handler *)

Definition utf8_char (c : Z) : option (list Z) :=
  if c <? 0 then None
  else if c <? 128 then Some [c]
  else if c <? 2048 then
    Some [192 + Z.shiftr c 6; 128 + Z.land c 63]
  else if (55296 <=? c) && (c <=? 57343) then None   (* lone surrogate *)
  else if c <? 65536 then
    Some [224 + Z.shiftr c 12; 128 + Z.land (Z.shiftr c 6) 63; 128 + Z.land c 63]
  else if c <? 1114112 then
    Some [240 + Z.shiftr c 18; 128 + Z.land (Z.shiftr c 12) 63;
          128 + Z.land (Z.shiftr c 6) 63; 128 + Z.land c 63]
  else None.

Fixpoint utf8_encode (s : pystr) : option (list Z) :=
  match s with
  | [] => Some []
  | c :: s' =>
      match utf8_char c, utf8_encode s' with
      | Some b, Some bs => Some (b ++ bs)
      | _, _ => None
      end
  end.

(** ** [hashlib.sha256(data).hexdigest()] (FIPS 180-4) *)

Module Sha256.

Definition w32 (x : Z) : Z := Z.land x (Z.ones 32).
Definition add (x y : Z) : Z := w32 (x + y).
Definition rotr (x : Z) (n : Z) : Z :=
  w32 (Z.lor (Z.shiftr x n) (Z.shiftl x (32 - n))).
Definition ch (x y z : Z) : Z :=
  Z.lxor (Z.land x y) (Z.land (Z.lxor x (Z.ones 32)) z).
Definition maj (x y z : Z) : Z :=
  Z.lxor (Z.lxor (Z.land x y) (Z.land x z)) (Z.land y z).
Definition big_sigma0 (x : Z) : Z := Z.lxor (Z.lxor (rotr x 2) (rotr x 13)) (rotr x 22).
Definition big_sigma1 (x : Z) : Z := Z.lxor (Z.lxor (rotr x 6) (rotr x 11)) (rotr x 25).
Definition small_sigma0 (x : Z) : Z := Z.lxor (Z.lxor (rotr x 7) (rotr x 18)) (Z.shiftr x 3).
Definition small_sigma1 (x : Z) : Z := Z.lxor (Z.lxor (rotr x 17) (rotr x 19)) (Z.shiftr x 10).

(** The constants are the leading 32 fractional bits of the cube roots
    (round constants) and square roots (initial state) of the first
    primes, computed here from that definition. *)
Definition is_prime (n : nat) : bool :=
  forallb (fun d => negb (Nat.eqb (Nat.modulo n d) 0)) (seq 2 (n - 2)).

Definition primes_below_312 : list Z :=
  map Z.of_nat (filter is_prime (seq 2 310)).

(** Integer cube root by bisection; [lo^3 <= n < hi^3] throughout. *)
Fixpoint cbrt_search (fuel : nat) (lo hi n : Z) : Z :=
  match fuel with
  | O => lo
  | S f =>
      if hi - lo <=? 1 then lo
      else let m := (lo + hi) / 2 in
           if m * m * m <=? n then cbrt_search f m hi n else cbrt_search f lo m n
  end.

Definition icbrt (n : Z) : Z := cbrt_search 128 0 (2 ^ (Z.log2 n / 3 + 1)) n.

Definition round_constants : list Z :=
  map (fun p => w32 (icbrt (p * 2 ^ 96))) (firstn 64 primes_below_312).

Definition initial_state : list Z :=
  map (fun p => w32 (Z.sqrt (p * 2 ^ 64))) (firstn 8 primes_below_312).

(** Big-endian bytes of [x], [n] of them. *)
Fixpoint be_bytes (n : nat) (x : Z) : list Z :=
  match n with
  | O => []
  | S m => be_bytes m (Z.shiftr x 8) ++ [Z.land x 255]
  end.

Definition padding (msg : list Z) : list Z :=
  let len := Z.of_nat (List.length msg) in
  msg ++ [128] ++ repeat 0 (Z.to_nat ((55 - len) mod 64)) ++ be_bytes 8 (8 * len).

Fixpoint words (fuel : nat) (bs : list Z) : list Z :=
  match fuel, bs with
  | S f, b0 :: b1 :: b2 :: b3 :: rest =>
      (Z.lor (Z.shiftl b0 24) (Z.lor (Z.shiftl b1 16) (Z.lor (Z.shiftl b2 8) b3)))
        :: words f rest
  | _, _ => []
  end.

(** Message schedule: the 16 block words extended to 64; [acc] holds the
    words computed so far, most recent first. *)
Fixpoint schedule (n : nat) (acc : list Z) : list Z :=
  match n with
  | O => rev acc
  | S m =>
      let w t := nth t acc 0 in
      schedule m (add (add (small_sigma1 (w 1%nat)) (w 6%nat))
                      (add (small_sigma0 (w 14%nat)) (w 15%nat)) :: acc)
  end.

Definition round (st : list Z) (kw : Z * Z) : list Z :=
  match st with
  | [a; b; c; d; e; f; g; h] =>
      let t1 := add (add (add h (big_sigma1 e)) (add (ch e f g) (fst kw))) (snd kw) in
      let t2 := add (big_sigma0 a) (maj a b c) in
      [add t1 t2; a; b; c; add d t1; e; f; g]
  | _ => st
  end.

Definition compress (st : list Z) (block : list Z) : list Z :=
  let ws := schedule 48 (rev (words 16 block)) in
  let st' := fold_left round (combine round_constants ws) st in
  map (fun p => add (fst p) (snd p)) (combine st st').

Fixpoint blocks (fuel : nat) (bs : list Z) : list (list Z) :=
  match fuel with
  | O => []
  | S f => match bs with [] => [] | _ => firstn 64 bs :: blocks f (skipn 64 bs) end
  end.

Definition digest (msg : list Z) : list Z :=
  let p := padding msg in
  flat_map (be_bytes 4) (fold_left compress (blocks (List.length p) p) initial_state).

Definition hex_nibble (n : Z) : Z := if n <? 10 then 48 + n else 87 + n.

Definition hexdigest (msg : list Z) : pystr :=
  flat_map (fun b => [hex_nibble (Z.shiftr b 4); hex_nibble (Z.land b 15)]) (digest msg).

End Sha256.

(** ** Exceptions raised along the import path *)

Inductive exn :=
| ValueError (msg : string)
| TypeError
| AttributeError
| UnicodeEncodeError
| DecimalInvalidOperation                (* decimal.InvalidOperation *)
| OverflowError
| FieldError (keyword : string)          (* django.core.exceptions.FieldError *)
| DoesNotExist                           (* Model.DoesNotExist *)
| MultipleObjectsReturned
| DjangoValidationError                  (* django.core.exceptions.ValidationError *)
| JsonschemaValidationError (msg : string). (* jsonschema.exceptions.ValidationError *)

Definition is_DoesNotExist (e : exn) : bool :=
  match e with DoesNotExist => true | _ => false end.

(** ** Record store: the [Author] and [Category] tables *)

(** [models.Author]: the implicit primary key and [name]. *)
Record Author := mkAuthor { author_id : Z; author_name : pystr }.

(** [models.Category]: the implicit primary key and [name]. *)
Record Category := mkCategory { category_id : Z; category_name : pystr }.

Record DB := mkDB {
  authors : list Author;          (* rows in primary key order *)
  author_next_id : Z;             (* next value of the id sequence *)
  categories : list Category
}.

(** ** State and exception monad over the store *)

Definition M (A : Type) := DB -> (exn + A) * DB.

Definition ret {A} (x : A) : M A := fun db => (inr x, db).
Definition raise {A} (e : exn) : M A := fun db => (inl e, db).
Definition bind {A B} (m : M A) (k : A -> M B) : M B :=
  fun db => match m db with
            | (inl e, db') => (inl e, db')
            | (inr x, db') => k x db'
            end.

Notation "'let*' x := m 'in' k" := (bind m (fun x => k))
  (at level 200, x ident, m at level 100, k at level 200).

(** [try: m except <catches>: h]; effects of [m] before the raise stay. *)
Definition try_except {A} (m : M A) (catches : exn -> bool) (h : exn -> M A) : M A :=
  fun db => match m db with
            | (inl e, db') => if catches e then h e db' else (inl e, db')
            | r => r
            end.

(** ** The [Author] manager *)

(** Concrete fields of [Author] (models.py): the primary key and [name]. *)
Definition author_fields : list string := ["id"; "name"].

(** [Author.objects.all()] *)
Definition author_all : M (list Author) := fun db => (inr (authors db), db).

(** Does [a] satisfy the lookup [f=v]?  A [CharField] compares with
    [str(v)]; [None] matches nothing. *)
Definition author_matches (f : string) (v : pyval) (a : Author) : bool :=
  match v with
  | PyNone => false
  | _ => if String.eqb f "name" then pystr_eqb (author_name a) (py_str v)
         else pyval_eqb (PyInt (author_id a)) v
  end.

(** [qs.filter(f=v)]: a keyword that names no field of the model
    raises [FieldError] when the filter is built. *)
Definition author_filter (f : string) (v : pyval) (qs : list Author) : M (list Author) :=
  if existsb (String.eqb f) author_fields
  then ret (filter (author_matches f v) qs)
  else raise (FieldError f).

(** [qs.get()] on an already filtered queryset. *)
Definition qs_get {T} (qs : list T) : M T :=
  match qs with
  | [x] => ret x
  | [] => raise DoesNotExist
  | _ => raise MultipleObjectsReturned
  end.

(** [Author.objects.create(name=name)] *)
Definition author_create (name : pystr) : M Author :=
  fun db =>
    let a := mkAuthor (author_next_id db) name in
    (inr a, mkDB (authors db ++ [a]) (author_next_id db + 1) (categories db)).

(** [Author.objects.get_or_create(name=name)]: [get], and [create] on
    [DoesNotExist]. *)
Definition author_get_or_create (name : pystr) : M (Author * bool) :=
  try_except
    (let* qs := author_all in
     let* qs' := author_filter "name" (PyStr name) qs in
     let* a := qs_get qs' in
     ret (a, false))
    is_DoesNotExist
    (fun _ => let* a := author_create name in ret (a, true)).

(** ** [ForeignKeyWidget.clean] (django-import-export)

    [if value: return self.get_queryset(value, row).get(<self.field>=value)]
    [else: return None] *)
Definition fk_clean (get_queryset : pyval -> M (list Author)) (field : string)
    (value : pyval) : M (option Author) :=
  if truthy value then
    let* qs := get_queryset value in
    let* qs' := author_filter field value qs in
    let* a := qs_get qs' in
    ret (Some a)
  else ret None.

(** ** [AuthorForeignKeyWidget] (admin.py:41-81) *)

Module AuthorForeignKeyWidget.

(** The widget instance: [field = 'name'], [publisher_id] set by [__init__]. *)
Record t := mk { publisher_id : pyval }.

Definition field : string := "name".

(** [get_queryset]: [Author.objects.filter(publisher_id=self.publisher_id)] *)
Definition get_queryset (w : t) (value : pyval) : M (list Author) :=
  let* qs := author_all in
  author_filter "publisher_id" (publisher_id w) qs.

(** [clean] *)
Definition clean (w : t) (value : pyval) : M (option Author) :=
  if negb (truthy value) then
    let* r := author_get_or_create (of_ascii "NA") in
    ret (Some (fst r))
  else
    try_except (fk_clean (get_queryset w) field value)
      is_DoesNotExist
      (fun _ => let* a := author_create (py_str value) in ret (Some a)).

End AuthorForeignKeyWidget.

(** The [author] column of a batch, row after row: each row's coercion
    sees the store the previous rows left; a failing row records its
    error and the batch goes on. *)
Fixpoint clean_author_column (w : AuthorForeignKeyWidget.t) (cells : list pyval)
    (db : DB) : list (exn + option Author) * DB :=
  match cells with
  | [] => ([], db)
  | v :: cells' =>
      let (r, db1) := AuthorForeignKeyWidget.clean w v db in
      let (rs, db2) := clean_author_column w cells' db1 in
      (r :: rs, db2)
  end.

Definition count_authors_named (n : pystr) (db : DB) : nat :=
  List.length (filter (fun a => pystr_eqb (author_name a) n) (authors db)).

Definition empty_db : DB := mkDB [] 1 [].

(** ** [ManyToManyWidget(Category, field='name', separator='|')]

    The widget of [BookResource.categories] (admin.py:151-152) is
    django-import-export's [ManyToManyWidget]; its [clean]:
    [if not value: return self.model.objects.none()]
    [if isinstance(value, (float, int)): ids = [int(value)]]
    [else: ids = value.split(self.separator);]
    [      ids = filter(None, [i.strip() for i in ids])]
    [return self.model.objects.filter(<field>__in=ids)] *)

(** [str.isspace] on one code point. *)
Definition py_isspace (c : Z) : bool :=
  ((9 <=? c) && (c <=? 13)) || ((28 <=? c) && (c <=? 32)) || (c =? 133) || (c =? 160)
  || (c =? 5760) || ((8192 <=? c) && (c <=? 8202)) || (c =? 8232) || (c =? 8233)
  || (c =? 8239) || (c =? 8287) || (c =? 12288).

Fixpoint lstrip (s : pystr) : pystr :=
  match s with
  | c :: s' => if py_isspace c then lstrip s' else s
  | [] => []
  end.

(** [str.strip()] *)
Definition strip (s : pystr) : pystr := rev (lstrip (rev (lstrip s))).

(** [str.split(sep)] with a one-character separator. *)
Fixpoint split_on (sep : Z) (s : pystr) : list pystr :=
  match s with
  | [] => [[]]
  | c :: s' =>
      if c =? sep then [] :: split_on sep s'
      else match split_on sep s' with
           | p :: ps => (c :: p) :: ps
           | [] => [[c]]
           end
  end.

Module ManyToManyWidget.

Record t := mk { separator : Z }.

(** The instance of [BookResource]: [separator='|']. *)
Definition categories_widget : t := mk 124.

(** The tokens sent to the [name__in] lookup. *)
Definition ids (w : t) (value : pyval) : list pystr :=
  match value with
  | PyInt _ => [py_str value]
  | _ => filter (fun s => match s with [] => false | _ => true end)
                (map strip (split_on (separator w) (py_str value)))
  end.

Definition clean (w : t) (value : pyval) : M (list Category) :=
  if negb (truthy value) then ret []
  else fun db =>
    (inr (filter (fun c => existsb (pystr_eqb (category_name c)) (ids w value))
                 (categories db)), db).

End ManyToManyWidget.

(** ** [IntegerWidget] and [PositiveIntegerWidget] (admin.py:32-38) *)

(** *** [int(Decimal(s))] for a [str] [s] (CPython's [_decimal]) *)

Definition is_digit (c : Z) : bool := (48 <=? c) && (c <=? 57).

Fixpoint digits_value (acc : Z) (s : pystr) : option Z :=
  match s with
  | [] => Some acc
  | c :: s' => if is_digit c then digits_value (10 * acc + (c - 48)) s' else None
  end.

(** The code points of the digit zero of each run of decimal digits
    (general category Nd, Unicode 15.0/15.1 as in Python 3.12 and 3.13);
    each run holds the digits 0 to 9 in order. *)
Definition nd_zeros : list Z :=
  [0x30; 0x660; 0x6F0; 0x7C0; 0x966; 0x9E6; 0xA66; 0xAE6; 0xB66; 0xBE6;
   0xC66; 0xCE6; 0xD66; 0xDE6; 0xE50; 0xED0; 0xF20; 0x1040; 0x1090; 0x17E0;
   0x1810; 0x1946; 0x19D0; 0x1A80; 0x1A90; 0x1B50; 0x1BB0; 0x1C40; 0x1C50; 0xA620;
   0xA8D0; 0xA900; 0xA9D0; 0xA9F0; 0xAA50; 0xABF0; 0xFF10; 0x104A0; 0x10D30; 0x11066;
   0x110F0; 0x11136; 0x111D0; 0x112F0; 0x11450; 0x114D0; 0x11650; 0x116C0; 0x11730; 0x118E0;
   0x11950; 0x11C50; 0x11D50; 0x11DA0; 0x11F50; 0x16A60; 0x16AC0; 0x16B50; 0x1D7CE; 0x1D7D8;
   0x1D7E2; 0x1D7EC; 0x1D7F6; 0x1E140; 0x1E2F0; 0x1E4F0; 0x1E950; 0x1FBF0].

(** [Py_UNICODE_TODECIMAL] *)
Definition to_decimal (c : Z) : option Z :=
  match find (fun z => (z <=? c) && (c <? z + 10)) nd_zeros with
  | Some z => Some (c - z)
  | None => None
  end.

(** [numeric_as_ascii(u, strip_ws=1, ignore_underscores=1)] on the already
    stripped text: underscores are dropped, ASCII is kept, other
    whitespace becomes a blank, other decimal digits become ASCII digits;
    any other code point (and NUL) makes the text unparsable. *)
Fixpoint numeric_as_ascii (s : pystr) : option pystr :=
  match s with
  | [] => Some []
  | c :: s' =>
      if c =? 95 then numeric_as_ascii s'
      else
        let c' := if (0 <? c) && (c <=? 127) then Some c
                  else if py_isspace c then Some 32
                  else match to_decimal c with
                       | Some d => Some (48 + d)
                       | None => None
                       end in
        match c', numeric_as_ascii s' with
        | Some x, Some r => Some (x :: r)
        | _, _ => None
        end
  end.

Definition lower_ascii (c : Z) : Z := if (65 <=? c) && (c <=? 90) then c + 32 else c.

(** A decimal number: sign, coefficient and exponent, or a special value. *)
Inductive decimal :=
| DecFinite (neg : bool) (coeff exp : Z)
| DecInf (neg : bool)
| DecNaN.

Fixpoint drop_zeros (s : pystr) : pystr :=
  match s with
  | 48 :: s' => drop_zeros s'
  | _ => s
  end.

(** [[sign] digits] of an exponent part, at least one digit. *)
Definition parse_exponent (x : pystr) : option Z :=
  let '(sg, ds) := match x with
                   | 45 :: r => (-1, r)
                   | 43 :: r => (1, r)
                   | _ => (1, x)
                   end in
  match ds with
  | [] => None
  | _ => option_map (Z.mul sg) (digits_value 0 ds)
  end.

(** [decimal-part [exponent-part]]: digits with at most one point, at
    least one digit, then [e]/[E], an optional sign and digits.  The
    coefficient is all the digits; each fraction digit lowers the
    exponent by one. *)
Definition parse_finite (neg : bool) (t : pystr) : option decimal :=
  let '(m, ex) := match split_on 101 (map lower_ascii t) with
                  | [m] => (Some m, Some 0)
                  | [m; x] => (Some m, parse_exponent x)
                  | _ => (None, None)
                  end in
  match m, ex with
  | Some m, Some e =>
      let '(ip, fp) := match split_on 46 m with
                       | [i] => (i, [])
                       | [i; f] => (i, f)
                       | _ => ([46], [])
                       end in
      match ip ++ fp with
      | [] => None
      | ds => match digits_value 0 ds with
              | Some c => Some (DecFinite neg c (e - Z.of_nat (List.length fp)))
              | None => None
              end
      end
  | _, _ => None
  end.

(** [mpd_qset_string]: an optional sign, then [Inf]/[Infinity], [NaN] or
    [sNaN] with an optional digit payload (case-insensitive), or a finite
    number. *)
Definition parse_decimal (s : pystr) : option decimal :=
  let '(neg, t) := match s with
                   | 45 :: r => (true, r)
                   | 43 :: r => (false, r)
                   | _ => (false, s)
                   end in
  match map lower_ascii t with
  | [105; 110; 102] | [105; 110; 102; 105; 110; 105; 116; 121] => Some (DecInf neg)
  | 110 :: 97 :: 110 :: p | 115 :: 110 :: 97 :: 110 :: p =>
      if forallb is_digit p then Some DecNaN else None
  | _ => parse_finite neg t
  end.

(** The number of digits of a natural number. *)
Definition num_digits (c : Z) : Z :=
  Z.max 1 (Z.of_nat (List.length (drop_zeros (rev (digits_rev (S (Z.to_nat (Z.log2_up (c + 1)))) c))))).

(** The conversion is exact in the 64-bit maximal context
    ([Emax = 10^18 - 1], [Emin = -Emax], [Etiny = Emin - (10^18 - 2)]):
    a finite number that would overflow, or that needs rounding or
    clamping below [Etiny], raises [InvalidOperation]. *)
Definition decimal_exact (d : decimal) : bool :=
  match d with
  | DecFinite _ c e =>
      let adj := e + num_digits c - 1 in
      (adj <=? 999999999999999999)
      && ((-999999999999999999 <=? adj) || (-1999999999999999997 <=? e))
  | _ => true
  end.

(** [int(d)]: truncation toward zero (a coefficient with fewer digits
    than the negated exponent truncates to [0]); NaN raises
    [ValueError], an infinity [OverflowError]. *)
Definition int_of_decimal (d : decimal) : exn + Z :=
  match d with
  | DecFinite neg c e =>
      let n := if 0 <=? e then c * 10 ^ e
               else if num_digits c <? - e then 0 else c / 10 ^ (- e) in
      inr (if neg then - n else n)
  | DecInf _ => inl OverflowError
  | DecNaN => inl (ValueError "cannot convert NaN to integer")
  end.

Definition py_int_decimal (s : pystr) : exn + Z :=
  match numeric_as_ascii (strip s) with
  | Some a =>
      match parse_decimal a with
      | Some d => if decimal_exact d then int_of_decimal d else inl DecimalInvalidOperation
      | None => inl DecimalInvalidOperation
      end
  | None => inl DecimalInvalidOperation
  end.

(** *** The widgets *)

(** [NumberWidget.is_empty]: a [str] is stripped first; [0] is not empty. *)
Definition is_empty (value : pyval) : bool :=
  match value with
  | PyNone => true
  | PyStr s => match strip s with [] => true | _ => false end
  | PyInt _ => false
  end.

Section IntegerWidget.

(** [int(Decimal(s))] for a [str] [s], as the running Python computes
    it: an integer or the exception raised. *)
Variable int_decimal : pystr -> exn + Z.

(** [int(Decimal(value))]: an [int] converts exactly, [None] is refused. *)
Definition int_decimal_value (value : pyval) : exn + Z :=
  match value with
  | PyNone => inl TypeError
  | PyStr s => int_decimal s
  | PyInt z => inr z
  end.

(** [IntegerWidget.clean]: [None] for an empty cell, else
    [int(Decimal(value))]. *)
Definition integer_clean_with (value : pyval) : M (option Z) :=
  if is_empty value then ret None
  else match int_decimal_value value with
       | inr z => ret (Some z)
       | inl e => raise e
       end.

(** [PositiveIntegerWidget.clean] *)
Definition positive_integer_clean_with (value : pyval) : M (option Z) :=
  let* val := integer_clean_with value in
  match val with
  | Some z => if z <? 0 then raise (ValueError "value must be positive") else ret val
  | None => ret val
  end.

End IntegerWidget.

Definition integer_clean : pyval -> M (option Z) := integer_clean_with py_int_decimal.
Definition positive_integer_clean : pyval -> M (option Z) := positive_integer_clean_with py_int_decimal.

(** ** [models.Book] and [Book.full_clean] (models.py:33-52) *)

(** [datetime.date]; Python orders dates as (year, month, day). *)
Record date := mkDate { year : Z; month : Z; day : Z }.

Definition date_lt (a b : date) : bool :=
  (year a <? year b)
  || ((year a =? year b) && ((month a <? month b)
                             || ((month a =? month b) && (day a <? day b)))).

Record Book := mkBook {
  book_name : pystr;
  book_author : option Z;          (* author_id, nullable *)
  book_author_email : pystr;
  book_imported : bool;
  book_published : option date;    (* DateField(blank=True, null=True) *)
  book_price : option Z            (* DecimalField, nullable *)
}.

Section FullClean.

(** [models.Model.full_clean]: Django's field, [clean] and uniqueness
    checks; [false] means it raises [django.core.exceptions.ValidationError]. *)
Variable model_full_clean : Book -> bool.

(** [Book.full_clean]; [inr tt] is a normal return.  [None < date]
    raises [TypeError]; [ValidationError] is the one imported from
    [jsonschema.exceptions] (models.py:2). *)
Definition full_clean (b : Book) : exn + unit :=
  if negb (model_full_clean b) then inl DjangoValidationError
  else match book_published b with
       | None => inl TypeError
       | Some d =>
           if date_lt d (mkDate 1900 1 1) then inl (JsonschemaValidationError "book is out of print")
           else if pystr_eqb (book_name b) (of_ascii "Ulysses")
                then inl (JsonschemaValidationError "book has been banned")
                else inr tt
       end.

End FullClean.

(** ** [BookResource.after_import_row] (admin.py:155-180)

    What the hook prints, as events. *)
Inductive HookEvent :=
| WorkflowTriggered (name : pystr)            (* "Workflow triggered for books: ..." *)
| DateWarning (name : pystr) (raw : pyval)    (* "Warning: Date parsing may have failed ..." *)
| DebugOriginalInstance                       (* "Debug - Original: ..., Instance: ..." *)
| DebugPublished (published : option date).   (* "Instance published: ..." *)

(** The first test of the hook: [original is not None and
    original.published is None and instance is not None and
    instance.published is not None]. *)
Definition published_set_now (original instance : option Book) : bool :=
  match original, instance with
  | Some o, Some i =>
      match book_published o, book_published i with
      | None, Some _ => true
      | _, _ => false
      end
  | _, _ => false
  end.

Definition after_import_row (row : Row) (original instance : option Book) : list HookEvent :=
  if published_set_now original instance then
    match instance with
    | Some i => [WorkflowTriggered (book_name i)]
    | None => []
    end
  else
    match instance with
    | Some i =>
        match book_published i with
        | None =>
            (* raw_date_value = row.get('published_field', 'NOT_FOUND') *)
            let raw := match row_get "published_field" row with
                       | Some v => v
                       | None => PyStr (of_ascii "NOT_FOUND")
                       end in
            [DateWarning (book_name i) raw]
        | Some d => [DebugOriginalInstance; DebugPublished (Some d)]
        end
    | None => [DebugOriginalInstance]
    end.

(** ** [BookResource.before_import_row] (admin.py:123-127) *)

Definition before_import_row (row : Row) : exn + Row :=
  match row_get "name" row with
  | Some v =>
      if truthy v then
        match v with
        | PyStr s =>
            match utf8_encode s with
            | Some bytes => inr (row_set "hash_id" (PyStr (Sha256.hexdigest bytes)) row)
            | None => inl UnicodeEncodeError
            end
        | _ => inl AttributeError               (* no [encode] on a non-str *)
        end
      else inl (ValueError "Row missing 'name' column or value.")
  | None => inl (ValueError "Row missing 'name' column or value.")
  end.

(** ** One row through [Resource.import_row]

    [before_import_row] is the first step inside the row's [try]; an
    exception there becomes the row's error result.  [import_rest] is
    everything the library does after it (instance lookup through
    [get_instance], field coercion, [for_delete], save, hooks). *)
Inductive RowResult :=
| RowError (e : exn)
| RowNew
| RowUpdate
| RowDelete
| RowSkip.

Section ImportRow.

Variable import_rest : Row -> DB -> RowResult * DB.

Definition import_row (row : Row) (db : DB) : RowResult * DB :=
  match before_import_row row with
  | inl e => (RowError e, db)
  | inr row' => import_rest row' db
  end.

End ImportRow.

(** ** The rest of [BookResource] (admin.py:84-188) *)

(** [before_import] on [dataset.headers]: tablib keeps a dataset without
    headers as [None], on which [in] raises [TypeError]; otherwise a
    ["hash_id"] header is appended (in place) when there is none.
    [super().before_import] is the library's empty hook. *)
Definition before_import (headers : option (list string)) : exn + list string :=
  match headers with
  | None => inl TypeError
  | Some hs =>
      inr (if existsb (String.eqb "hash_id") hs then hs else hs ++ ["hash_id"])
  end.

(** [for_delete]: [row.get("delete") == "1"]. *)
Definition for_delete (row : Row) : bool :=
  pyval_eqb (match row_get "delete" row with Some v => v | None => PyNone end)
            (PyStr (of_ascii "1")).

(** [filter_export]; [author_id] is the value given to [__init__]
    ([None], or an author's primary key). *)
Definition filter_export (author_id : option Z) (queryset : list Book) : list Book :=
  match author_id with
  | Some a =>
      if negb (a =? 0)
      then filter (fun b => match book_author b with
                            | Some x => x =? a
                            | None => false
                            end) queryset
      else queryset
  | None => queryset
  end.

(** [get_instance] over the [Book] table [books]:
    [Book.objects.get(name=row['name'])], [None] on [DoesNotExist];
    [MultipleObjectsReturned] is not caught. *)
Definition get_instance (books : list Book) (row : Row) : exn + option Book :=
  match row_get "name" row with
  | Some v =>
      if truthy v then
        match filter (fun b => pystr_eqb (book_name b) (py_str v)) books with
        | [b] => inr (Some b)
        | [] => inr None
        | _ => inl MultipleObjectsReturned
        end
      else inr None
  | None => inr None
  end.

(** ** [AuthorManager] and [Author.natural_key] (models.py:6-20) *)

(** [get_by_natural_key(name)]: [self.get(name=name)] *)
Definition get_by_natural_key (name : pystr) : M Author :=
  let* qs := author_all in
  let* qs' := author_filter "name" (PyStr name) qs in
  qs_get qs'.

(** [natural_key]: the 1-tuple [(self.name,)] *)
Definition natural_key (a : Author) : list pystr := [author_name a].

(** ** [CustomBookAdmin] keyword plumbing (admin.py:271-285) *)

(** Values found in [kwargs] and in a form's [cleaned_data]: a form
    carries [Some cleaned_data] once validated, [None] when it has no
    [cleaned_data] attribute. *)
#[warnings="-register-all"]
Inductive KwVal :=
| KwNone
| KwAuthor (a : Author)
| KwForm (cleaned_data : option (list (string * KwVal)))
| KwInt (z : Z)
| KwOther.

Definition Kwargs := list (string * KwVal).

Fixpoint kw_get (k : string) (d : list (string * KwVal)) : option KwVal :=
  match d with
  | [] => None
  | (k', v) :: d' => if String.eqb k k' then Some v else kw_get k d'
  end.

(** [d[k] = v] / [d.update({k: v})] *)
Fixpoint kw_set (k : string) (v : KwVal) (d : Kwargs) : Kwargs :=
  match d with
  | [] => [(k, v)]
  | (k', v') :: d' => if String.eqb k k' then (k', v) :: d' else (k', v') :: kw_set k v d'
  end.

(** [get_import_data_kwargs]: with a validated [form], [kwargs["author"]]
    becomes [form.cleaned_data.get("author", None)]. *)
Definition get_import_data_kwargs (kwargs : Kwargs) : Kwargs :=
  match kw_get "form" kwargs with
  | Some (KwForm (Some cd)) =>
      kw_set "author" (match kw_get "author" cd with Some v => v | None => KwNone end) kwargs
  | _ => kwargs
  end.

(** [after_init_instance]: [instance.author = kwargs["author"]] when the
    key is there.  The foreign key descriptor takes an [Author] or
    [None] and raises [ValueError] on anything else. *)
Definition after_init_instance (instance : Book) (kwargs : Kwargs) : exn + Book :=
  let with_author x :=
    mkBook (book_name instance) x (book_author_email instance) (book_imported instance)
           (book_published instance) (book_price instance) in
  match kw_get "author" kwargs with
  | Some (KwAuthor a) => inr (with_author (Some (author_id a)))
  | Some KwNone => inr (with_author None)
  | Some _ => inl (ValueError "Cannot assign: Book.author must be an Author instance.")
  | None => inr instance
  end.

(** [get_export_resource_kwargs] (admin.py:297-302): with a validated
    export form, [kwargs.update(author_id=cleaned_data["author"].id)]; a
    missing ["author"] raises [KeyError], a value without [id] (such as
    [None]) raises [AttributeError]. *)
Inductive KwError := KeyError (k : string) | KwAttributeError (attr : string).

Definition get_export_resource_kwargs (kwargs : Kwargs) : KwError + Kwargs :=
  match kw_get "export_form" kwargs with
  | Some (KwForm (Some cd)) =>
      match kw_get "author" cd with
      | Some (KwAuthor a) => inr (kw_set "author_id" (KwInt (author_id a)) kwargs)
      | Some _ => inl (KwAttributeError "id")
      | None => inl (KeyError "author")
      end
  | _ => inr kwargs
  end.

(** The [BookResource] built with the kwargs as keyword arguments
    (admin.py:95-98): [__init__(self, publisher_id=None, author_id=None)]
    accepts no other keyword and raises [TypeError] on one; otherwise the
    resource keeps the [author_id] keyword ([None] when absent). *)
Definition book_resource_init (kwargs : Kwargs) : exn + KwVal :=
  if forallb (fun kv => String.eqb (fst kv) "publisher_id" || String.eqb (fst kv) "author_id") kwargs
  then inr (match kw_get "author_id" kwargs with Some v => v | None => KwNone end)
  else inl TypeError.

(** ** Sample inputs *)

Definition NA : pystr := of_ascii "NA".
Definition frank_herbert : pystr := of_ascii "Frank Herbert".

(** Django's field checks for [Book] that matter here: [name] is
    required ([blank=False]) with [max_length=100], [author_email] has
    [max_length=50]; the other fields are blank-able. *)
Definition book_field_checks (b : Book) : bool :=
  (1 <=? Z.of_nat (List.length (book_name b))) && (Z.of_nat (List.length (book_name b)) <=? 100)
  && (Z.of_nat (List.length (book_author_email b)) <=? 50).

Definition ulysses_undated : Book :=
  mkBook (of_ascii "Ulysses") None [] false None None.

Definition dune_row : Row :=
  [("name", PyStr (of_ascii "Dune")); ("price", PyStr (of_ascii "15"));
   ("published_date", PyStr (of_ascii "1965-08-01"));
   ("author", PyStr frank_herbert)].

Definition dune_1965 : Book :=
  mkBook (of_ascii "Dune") (Some 1) [] false (Some (mkDate 1965 8 1)) (Some 15).

(** The primitive is the real SHA-256: FIPS 180-4 test vectors. *)
Example sha256_abc :
  Sha256.hexdigest (of_ascii "abc")
  = of_ascii "ba7816bf8f01cfea414140de5dae2223b00361a396177a9cb410ff61f20015ad".
Proof. vm_compute. reflexivity. Qed.

Example sha256_two_blocks :
  Sha256.hexdigest (of_ascii "abcdbcdecdefdefgefghfghighijhijkijkljklmklmnlmnomnopnopq")
  = of_ascii "248d6a61d20638b8e5c026930c3e6039a33ce45964ff2167f6ecedd419db06c1".
Proof. vm_compute. reflexivity. Qed.

Example sha256_constants_ends :
  (List.length Sha256.round_constants, hd 0 Sha256.round_constants,
   last Sha256.round_constants 0, hd 0 Sha256.initial_state,
   last Sha256.initial_state 0)
  = (64%nat, 0x428a2f98, 0xc67178f2, 0x6a09e667, 0x5be0cd19).
Proof. vm_compute. reflexivity. Qed.

(** The price widget on cells a spreadsheet may hold: blanks are empty,
    [Decimal] reads exponents, underscores and other scripts' digits,
    and [int] truncates toward zero. *)
Example price_cells :
  map (fun s => fst (positive_integer_clean (PyStr (of_ascii s)) empty_db))
      ["  "; "-1e3"; "1_000"; "-0.5"; "2.9"; "NaN"; "12abc"]
  = [inr None; inl (ValueError "value must be positive"); inr (Some 1000); inr (Some 0);
     inr (Some 2); inl (ValueError "cannot convert NaN to integer"); inl DecimalInvalidOperation]
  /\ fst (positive_integer_clean (PyStr [0x661; 0x662]) empty_db) = inr (Some 12).
Proof. split; vm_compute; reflexivity. Qed.

(** ** General lemmas *)

Lemma pystr_eqb_eq (a b : pystr) : pystr_eqb a b = true <-> a = b.
Proof.
  revert b; induction a as [|x a IH]; intros [|y b]; simpl; try (split; congruence).
  rewrite andb_true_iff, Z.eqb_eq, IH. split; [intros [-> ->]; reflexivity | intros H; injection H; auto].
Qed.

Lemma pystr_eqb_refl (a : pystr) : pystr_eqb a a = true.
Proof. apply pystr_eqb_eq; reflexivity. Qed.

Lemma row_get_row_set_same (k : string) (v : pyval) (r : Row) :
  row_get k (row_set k v r) = Some v.
Proof.
  induction r as [|[k' v'] r IH]; simpl.
  - rewrite String.eqb_refl; reflexivity.
  - destruct (String.eqb k k') eqn:E; simpl; rewrite ?E; auto.
Qed.

Lemma filter_author_name (n : pystr) (l : list Author) :
  filter (author_matches "name" (PyStr n)) l
  = filter (fun a => pystr_eqb (author_name a) n) l.
Proof. apply filter_ext; intros a; reflexivity. Qed.

(** [get_or_create] on the [name] lookup, by the number of matches. *)
Lemma author_get_or_create_eq (n : pystr) (db : DB) :
  author_get_or_create n db =
  match filter (fun a => pystr_eqb (author_name a) n) (authors db) with
  | [a] => (inr (a, false), db)
  | [] => let a := mkAuthor (author_next_id db) n in
          (inr (a, true), mkDB (authors db ++ [a]) (author_next_id db + 1) (categories db))
  | _ => (inl MultipleObjectsReturned, db)
  end.
Proof.
  unfold author_get_or_create, try_except, bind, author_all, author_filter, ret.
  simpl. rewrite filter_author_name.
  destruct (filter _ (authors db)) as [|a [|b l]]; reflexivity.
Qed.

(** A non-empty author cell never reaches the lookup: building the
    publisher-scoped queryset raises [FieldError], nothing is created. *)
Lemma author_clean_nonempty (w : AuthorForeignKeyWidget.t) (v : pyval) (db : DB) :
  truthy v = true ->
  AuthorForeignKeyWidget.clean w v db = (inl (FieldError "publisher_id"), db).
Proof.
  intros H. unfold AuthorForeignKeyWidget.clean, try_except, fk_clean.
  rewrite H. reflexivity.
Qed.

Lemma clean_author_column_nonempty (w : AuthorForeignKeyWidget.t) (cells : list pyval) (db : DB) :
  Forall (fun v => truthy v = true) cells ->
  clean_author_column w cells db = (map (fun _ => inl (FieldError "publisher_id")) cells, db).
Proof.
  induction 1 as [|v cells Hv _ IH]; simpl; [reflexivity|].
  rewrite author_clean_nonempty by exact Hv. rewrite IH. reflexivity.
Qed.

(** An empty author cell resolves to the single ["NA"] author, creating
    it only when there is none. *)
Lemma author_clean_empty_step (w : AuthorForeignKeyWidget.t) (v : pyval) (db : DB) :
  truthy v = false -> (count_authors_named NA db <= 1)%nat ->
  exists a db', AuthorForeignKeyWidget.clean w v db = (inr (Some a), db') /\
    author_name a = NA /\ count_authors_named NA db' = 1%nat /\
    (List.length (authors db') <= List.length (authors db) + 1)%nat /\
    (count_authors_named NA db = 1%nat -> db' = db).
Proof.
  intros Hv Hc. unfold AuthorForeignKeyWidget.clean. rewrite Hv. cbn [negb].
  unfold bind at 1. cbv beta iota. rewrite author_get_or_create_eq.
  unfold count_authors_named in *. fold NA.
  destruct (filter _ (authors db)) as [|a [|b l]] eqn:E; simpl in Hc.
  - eexists _, _; split; [reflexivity|]. simpl.
    rewrite filter_app, E. simpl. rewrite ?pystr_eqb_refl, length_app. simpl.
    repeat split; try lia; intros Hx; discriminate Hx.
  - eexists _, _; split; [reflexivity|].
    assert (Ha : In a (filter (fun a => pystr_eqb (author_name a) NA) (authors db)))
      by (rewrite E; left; reflexivity).
    apply filter_In in Ha as [_ Ha]. apply pystr_eqb_eq in Ha.
    rewrite E. repeat split; auto; lia.
  - lia.
Qed.

(** ** Claims *)

(** C1 (code_bug). Two rows of one batch name the same unseen author
    ["Frank Herbert"], the store is empty, the widget was built with
    [publisher_id=1].  Claimed: exactly one such [Author] afterwards.
    The code: each row's lookup raises [FieldError] on the
    [publisher_id] keyword (Author has no such field), the [except
    Author.DoesNotExist] branch is never reached, and no [Author] named
    ["Frank Herbert"] exists after the batch. *)
Theorem author_batch_unseen_name_twice :
  clean_author_column (AuthorForeignKeyWidget.mk (PyInt 1))
    [PyStr frank_herbert; PyStr frank_herbert] empty_db
  = ([inl (FieldError "publisher_id"); inl (FieldError "publisher_id")], empty_db)
  /\ count_authors_named frank_herbert
       (snd (clean_author_column (AuthorForeignKeyWidget.mk (PyInt 1))
               [PyStr frank_herbert; PyStr frank_herbert] empty_db)) = 0%nat.
Proof. split; reflexivity. Qed.

(** Once the default author exists, empty cells leave the store as it is. *)
Lemma clean_author_column_default_present (w : AuthorForeignKeyWidget.t)
    (cells : list pyval) (db : DB) :
  Forall (fun v => truthy v = false) cells ->
  count_authors_named NA db = 1%nat ->
  Forall (fun r => exists a, r = inr (Some a) /\ author_name a = NA)
         (fst (clean_author_column w cells db))
  /\ snd (clean_author_column w cells db) = db.
Proof.
  intros Hcells Hc. induction Hcells as [|v cells Hv Hcells IH]; simpl; [auto|].
  destruct (author_clean_empty_step w v db Hv ltac:(lia)) as (a & db1 & E & Ha & _ & _ & Hsame).
  rewrite E. specialize (Hsame Hc). subst db1.
  destruct (clean_author_column w cells db) as [rs db2] eqn:Ecol; simpl in *.
  destruct IH as [IHr IHdb]. split; [constructor; eauto | exact IHdb].
Qed.

(** C2. Every empty or missing author cell resolves to an author named
    ["NA"]; over any number of such cells (repeated runs) the default
    author is created at most once: starting from at most one ["NA"],
    there is exactly one afterwards and the table grew by at most one. *)
Theorem author_clean_empty_default_once (w : AuthorForeignKeyWidget.t)
    (cells : list pyval) (db : DB) :
  Forall (fun v => truthy v = false) cells ->
  (count_authors_named NA db <= 1)%nat ->
  Forall (fun r => exists a, r = inr (Some a) /\ author_name a = NA)
         (fst (clean_author_column w cells db))
  /\ (count_authors_named NA (snd (clean_author_column w cells db)) <= 1)%nat
  /\ (cells <> [] -> count_authors_named NA (snd (clean_author_column w cells db)) = 1%nat)
  /\ (List.length (authors (snd (clean_author_column w cells db)))
      <= List.length (authors db) + 1)%nat.
Proof.
  intros Hcells Hc. destruct Hcells as [|v cells Hv Hcells]; simpl.
  - repeat split; auto; [congruence | lia].
  - destruct (author_clean_empty_step w v db Hv Hc) as (a & db1 & E & Ha & H1 & Hl & _).
    rewrite E.
    destruct (clean_author_column_default_present w cells db1 Hcells H1) as [Hr Hdb].
    destruct (clean_author_column w cells db1) as [rs db2] eqn:Ecol; simpl in *.
    subst db2. repeat split; [constructor; eauto | lia | lia | lia].
Qed.

Lemma author_clean_empty_default_once_witness :
  Forall (fun v => truthy v = false) [PyStr []; PyNone; PyStr []]
  /\ (count_authors_named NA empty_db <= 1)%nat
  /\ Forall (fun r => exists a, r = inr (Some a) /\ author_name a = NA)
         (fst (clean_author_column (AuthorForeignKeyWidget.mk PyNone)
                 [PyStr []; PyNone; PyStr []] empty_db))
  /\ (count_authors_named NA (snd (clean_author_column (AuthorForeignKeyWidget.mk PyNone)
                 [PyStr []; PyNone; PyStr []] empty_db)) <= 1)%nat
  /\ ([PyStr []; PyNone; PyStr []] <> [] ->
      count_authors_named NA (snd (clean_author_column (AuthorForeignKeyWidget.mk PyNone)
                 [PyStr []; PyNone; PyStr []] empty_db)) = 1%nat)
  /\ (List.length (authors (snd (clean_author_column (AuthorForeignKeyWidget.mk PyNone)
                 [PyStr []; PyNone; PyStr []] empty_db)))
      <= List.length (authors empty_db) + 1)%nat.
Proof.
  assert (Hf : Forall (fun v => truthy v = false) [PyStr []; PyNone; PyStr []])
    by (repeat constructor).
  assert (Hc : (count_authors_named NA empty_db <= 1)%nat) by (vm_compute; lia).
  split; [exact Hf|]. split; [exact Hc|].
  apply (author_clean_empty_default_once (AuthorForeignKeyWidget.mk PyNone) _ _ Hf Hc).
Defined.

Lemma existsb_pystr_In (x : pystr) (l : list pystr) :
  existsb (pystr_eqb x) l = true <-> In x l.
Proof.
  rewrite existsb_exists. split.
  - intros (y & Hy & E). apply pystr_eqb_eq in E. subst; exact Hy.
  - intros H. exists x. split; [exact H | apply pystr_eqb_refl].
Qed.

(** C3 (counterexample). A [categories] cell ["Fiction"] against a store
    with no categories: the widget resolves it to no category at all and
    creates none, where lookup-or-create would give a ["Fiction"]
    category. *)
Theorem categories_unseen_token_not_created :
  ManyToManyWidget.clean ManyToManyWidget.categories_widget
    (PyStr (of_ascii "Fiction")) empty_db = (inr [], empty_db).
Proof. reflexivity. Qed.

(** C3 (amended). The [categories] cell is split on ['|'] into stripped
    tokens with the empty ones dropped; the result is exactly the
    existing [Category] rows whose name is one of the tokens, each row
    at most once (no duplicates when the table has none); tokens naming
    no existing category are dropped and nothing is created; an empty
    cell gives the empty set. *)
Theorem categories_clean_lookup_only (value : pyval) (db : DB) :
  (forall s, value = PyStr s ->
     ManyToManyWidget.ids ManyToManyWidget.categories_widget value
     = filter (fun t => match t with [] => false | _ => true end)
              (map strip (split_on 124 s)))
  /\ exists cs,
       ManyToManyWidget.clean ManyToManyWidget.categories_widget value db = (inr cs, db)
       /\ (truthy value = false -> cs = [])
       /\ (forall c, In c cs <->
             In c (categories db) /\ truthy value = true
             /\ In (category_name c) (ManyToManyWidget.ids ManyToManyWidget.categories_widget value))
       /\ (NoDup (categories db) -> NoDup cs).
Proof.
  split; [intros s ->; reflexivity|].
  unfold ManyToManyWidget.clean.
  destruct (truthy value) eqn:Ht; simpl.
  - eexists; split; [reflexivity|]. split; [discriminate|]. split.
    + intros c. rewrite filter_In, existsb_pystr_In. tauto.
    + apply NoDup_filter.
  - exists []; split; [reflexivity|]. split; [reflexivity|]. split.
    + intros c; simpl; split; [tauto | intros (_ & H & _); discriminate H].
    + intros _; constructor.
Qed.

(** C4 (code_bug). [Book(name="Ulysses", published=None)], which passes
    Django's field checks ([published] is [null=True, blank=True]):
    [full_clean] compares [None < date(1900, 1, 1)] and raises
    [TypeError]; the denylist [ValidationError] is never raised. *)
Theorem full_clean_ulysses_undated :
  book_field_checks ulysses_undated = true
  /\ full_clean book_field_checks ulysses_undated = inl TypeError.
Proof. split; reflexivity. Qed.

(** The parts of the whole-record rules that hold: a dated record before
    the floor, or a dated ["Ulysses"], is rejected with a validation
    error (Django's when its field checks fail, else the one of
    models.py). *)
Lemma full_clean_dated_rejections (mfc : Book -> bool) (b : Book) (d : date) :
  book_published b = Some d ->
  (date_lt d (mkDate 1900 1 1) = true \/ book_name b = of_ascii "Ulysses") ->
  full_clean mfc b = inl DjangoValidationError
  \/ exists msg, full_clean mfc b = inl (JsonschemaValidationError msg).
Proof.
  intros Hd Hr. unfold full_clean. destruct (mfc b); simpl; [|left; reflexivity].
  right. rewrite Hd. destruct (date_lt d _) eqn:Hlt; [eexists; reflexivity|].
  destruct Hr as [Hr | ->]; [congruence|]. eexists; reflexivity.
Qed.

(** Case split of the hook on which snapshots exist and which have
    [published] set. *)
Ltac book_cases :=
  unfold after_import_row, published_set_now;
  repeat match goal with
         | |- context [book_published ?b] => destruct (book_published b) eqn:?
         end;
  simpl.

(** C5. The hook reports the workflow trigger exactly when a previous
    snapshot existed with [published] unset and the saved instance has
    it set. *)
Theorem after_import_row_trigger_iff (row : Row) (original instance : option Book) :
  (exists n, In (WorkflowTriggered n) (after_import_row row original instance))
  <-> exists o i d, original = Some o /\ book_published o = None
                    /\ instance = Some i /\ book_published i = Some d.
Proof.
  destruct original as [o|], instance as [i|]; book_cases; split.
  all: try (intros (? & Hn); repeat (destruct Hn as [Hn | Hn]; try discriminate Hn);
            try contradiction; solve [do 3 eexists; eauto]).
  all: intros (o' & i' & d' & E1 & E2 & E3 & E4); try discriminate E1; try discriminate E3.
  all: injection E1 as <-; injection E3 as <-; try congruence.
  eexists; left; reflexivity.
Qed.

(** C6 (counterexample). A new row with [published_date] "1965-08-01":
    the saved instance has [published] set, the raw trigger column is
    never read under its header, and the hook prints only its debug
    lines, no warning. *)
Theorem after_import_row_set_date_no_warning :
  after_import_row dune_row None (Some dune_1965)
  = [DebugOriginalInstance; DebugPublished (Some (mkDate 1965 8 1))].
Proof. reflexivity. Qed.

(** C6 (amended). The hook emits the date warning exactly when the saved
    instance exists and its [published] is unset.  A saved instance whose
    [published] is set never gets it: it gets the workflow notification
    when a previous snapshot had [published] unset, and only the debug
    lines otherwise. *)
Theorem after_import_row_warning_iff (row : Row) (original instance : option Book) :
  ((exists n raw, In (DateWarning n raw) (after_import_row row original instance))
   <-> exists i, instance = Some i /\ book_published i = None)
  /\ (forall i d, instance = Some i -> book_published i = Some d ->
        ((exists o, original = Some o /\ book_published o = None) ->
           after_import_row row original instance = [WorkflowTriggered (book_name i)])
        /\ ((~ exists o, original = Some o /\ book_published o = None) ->
           after_import_row row original instance
           = [DebugOriginalInstance; DebugPublished (Some d)])).
Proof.
  split.
  - destruct original as [o|], instance as [i|]; book_cases; split.
    all: try (intros (? & ? & Hn); repeat (destruct Hn as [Hn | Hn]; try discriminate Hn);
              try contradiction; solve [eauto]).
    all: intros (i' & E1 & E2); try discriminate E1; injection E1 as <-; try congruence.
    all: do 2 eexists; left; reflexivity.
  - intros i d -> Hd. unfold after_import_row, published_set_now. rewrite Hd.
    destruct original as [o|].
    + destruct (book_published o) as [d'|] eqn:Ho; split.
      * intros (o' & E & Ho'). injection E as <-. congruence.
      * intros _. reflexivity.
      * intros _. reflexivity.
      * intros Hn. exfalso. apply Hn. exists o. split; [reflexivity | exact Ho].
    + split.
      * intros (o' & E & _). discriminate E.
      * intros _. reflexivity.
Qed.

(** C7. The price widget, for every cell and whatever [int(Decimal(s))]
    gives: an empty cell ([None] or a blank [str]) gives [None]; a cell
    whose [int(Decimal(value))] is negative raises the widget's
    [ValueError("value must be positive")]; a non-negative one is
    returned; a cell that does not convert raises the conversion's error;
    in every case the store is left as it was. *)
Theorem price_clean_outcomes (int_decimal : pystr -> exn + Z) (v : pyval) (db : DB) :
  (is_empty v = true -> positive_integer_clean_with int_decimal v db = (inr None, db))
  /\ (forall z, is_empty v = false -> int_decimal_value int_decimal v = inr z -> z < 0 ->
        positive_integer_clean_with int_decimal v db
        = (inl (ValueError "value must be positive"), db))
  /\ (forall z, is_empty v = false -> int_decimal_value int_decimal v = inr z -> 0 <= z ->
        positive_integer_clean_with int_decimal v db = (inr (Some z), db))
  /\ (forall e, is_empty v = false -> int_decimal_value int_decimal v = inl e ->
        positive_integer_clean_with int_decimal v db = (inl e, db)).
Proof.
  unfold positive_integer_clean_with, integer_clean_with, bind, ret, raise.
  split; [|split; [|split]].
  - intros ->. reflexivity.
  - intros z He Hz Hneg. rewrite He, Hz. apply Z.ltb_lt in Hneg. rewrite Hneg. reflexivity.
  - intros z He Hz Hpos. rewrite He, Hz.
    assert (Hn : (z <? 0) = false) by (apply Z.ltb_ge; exact Hpos).
    rewrite Hn. reflexivity.
  - intros e He Hz. rewrite He, Hz. reflexivity.
Qed.

(** C8. A row whose [name] column is absent or holds a falsy value fails
    in [before_import_row] with its [ValueError], whatever the rest of the
    import would do, and the store is not touched. *)
Theorem import_row_requires_name (import_rest : Row -> DB -> RowResult * DB)
    (row : Row) (db : DB) :
  (row_get "name" row = None \/ exists v, row_get "name" row = Some v /\ truthy v = false) ->
  import_row import_rest row db
  = (RowError (ValueError "Row missing 'name' column or value."), db).
Proof.
  intros H. unfold import_row, before_import_row.
  destruct H as [-> | (v & -> & Hv)]; [reflexivity|]. rewrite Hv. reflexivity.
Qed.

(** An import step that would create an author for every row. *)
Definition create_author_then_new (row : Row) (db : DB) : RowResult * DB :=
  (RowNew, snd (author_create (of_ascii "X") db)).

Lemma import_row_requires_name_witness :
  (row_get "name" [("name", PyStr []); ("price", PyStr (of_ascii "15"))] = None
   \/ exists v, row_get "name" [("name", PyStr []); ("price", PyStr (of_ascii "15"))] = Some v
                /\ truthy v = false)
  /\ import_row create_author_then_new [("name", PyStr []); ("price", PyStr (of_ascii "15"))] empty_db
     = (RowError (ValueError "Row missing 'name' column or value."), empty_db).
Proof.
  assert (H : row_get "name" [("name", PyStr []); ("price", PyStr (of_ascii "15"))] = None
              \/ exists v, row_get "name" [("name", PyStr []); ("price", PyStr (of_ascii "15"))]
                           = Some v /\ truthy v = false)
    by (right; exists (PyStr []); split; reflexivity).
  split; [exact H|]. exact (import_row_requires_name create_author_then_new _ empty_db H).
Defined.

(** C9. For a row whose [name] is a non-empty [str], [before_import_row]
    stores in [hash_id] the SHA-256 hex digest of the UTF-8 bytes of the
    name; two rows with equal names get equal [hash_id]s, whatever their
    other columns. *)
Theorem hash_id_sha256_of_name (row1 row2 : Row) (s : pystr) (bytes : list Z) :
  row_get "name" row1 = Some (PyStr s) ->
  row_get "name" row2 = Some (PyStr s) ->
  s <> [] ->
  utf8_encode s = Some bytes ->
  exists r1 r2, before_import_row row1 = inr r1 /\ before_import_row row2 = inr r2
    /\ row_get "hash_id" r1 = Some (PyStr (Sha256.hexdigest bytes))
    /\ row_get "hash_id" r2 = row_get "hash_id" r1.
Proof.
  intros H1 H2 Hs Hb. unfold before_import_row. rewrite H1, H2.
  assert (Ht : truthy (PyStr s) = true) by (destruct s; [congruence | reflexivity]).
  rewrite Ht, Hb. do 2 eexists. split; [reflexivity|]. split; [reflexivity|].
  rewrite !row_get_row_set_same. split; reflexivity.
Qed.

Lemma hash_id_sha256_of_name_witness :
  exists r1 r2,
    before_import_row [("name", PyStr (of_ascii "Dune"))] = inr r1
    /\ before_import_row dune_row = inr r2
    /\ row_get "hash_id" r1 = Some (PyStr (Sha256.hexdigest (of_ascii "Dune")))
    /\ row_get "hash_id" r2 = row_get "hash_id" r1.
Proof.
  apply (hash_id_sha256_of_name [("name", PyStr (of_ascii "Dune"))] dune_row
           (of_ascii "Dune") (of_ascii "Dune")); try reflexivity; discriminate.
Defined.

(** C10. A [Book] with [published] unset never passes [full_clean]: it
    raises [TypeError] from [None < date(1900, 1, 1)] (or Django's
    [ValidationError] when a field check fails first); the denylist
    check is never reached. *)
Theorem full_clean_undated_fails (mfc : Book -> bool) (b : Book) :
  book_published b = None ->
  full_clean mfc b = inl (if mfc b then TypeError else DjangoValidationError)
  /\ full_clean mfc b <> inr tt
  /\ full_clean mfc b <> inl (JsonschemaValidationError "book has been banned").
Proof.
  intros H. unfold full_clean. rewrite H.
  destruct (mfc b); simpl; repeat split; discriminate.
Qed.

Lemma full_clean_undated_fails_witness :
  book_published ulysses_undated = None
  /\ full_clean book_field_checks ulysses_undated = inl TypeError
  /\ full_clean book_field_checks ulysses_undated <> inr tt
  /\ full_clean book_field_checks ulysses_undated
     <> inl (JsonschemaValidationError "book has been banned").
Proof.
  split; [reflexivity|].
  exact (full_clean_undated_fails book_field_checks ulysses_undated eq_refl).
Defined.

(** ** Further properties of the code *)

Lemma row_get_row_set_other (k k' : string) (v : pyval) (r : Row) :
  k <> k' -> row_get k (row_set k' v r) = row_get k r.
Proof.
  intros Hne. induction r as [|[k0 v0] r IH]; simpl.
  - apply String.eqb_neq in Hne. rewrite Hne. reflexivity.
  - destruct (String.eqb k' k0) eqn:E; simpl.
    + apply String.eqb_eq in E. subst k0.
      apply String.eqb_neq in Hne. rewrite Hne. reflexivity.
    + destruct (String.eqb k k0); [reflexivity | exact IH].
Qed.

Lemma kw_get_kw_set_same (k : string) (v : KwVal) (d : Kwargs) :
  kw_get k (kw_set k v d) = Some v.
Proof.
  induction d as [|[k' v'] d IH]; simpl.
  - rewrite String.eqb_refl; reflexivity.
  - destruct (String.eqb k k') eqn:E; simpl; rewrite ?E; auto.
Qed.

(** [Book.full_clean] returns normally exactly when Django's field checks
    pass, [published] is set and not before 1900-01-01, and the name is
    not ["Ulysses"]. *)
Theorem full_clean_ok_iff (mfc : Book -> bool) (b : Book) :
  full_clean mfc b = inr tt
  <-> mfc b = true /\ exists d, book_published b = Some d
      /\ date_lt d (mkDate 1900 1 1) = false /\ book_name b <> of_ascii "Ulysses".
Proof.
  unfold full_clean. split.
  - destruct (mfc b); simpl; [|discriminate].
    destruct (book_published b) as [d|]; [|discriminate].
    destruct (date_lt d _) eqn:Hlt; [discriminate|].
    destruct (pystr_eqb (book_name b) _) eqn:Hu; [discriminate|].
    intros _. split; [reflexivity|]. exists d. split; [reflexivity|]. split; [exact Hlt|].
    intros He. rewrite He, pystr_eqb_refl in Hu. discriminate.
  - intros (-> & d & -> & Hlt & Hu). simpl. rewrite Hlt.
    destruct (pystr_eqb (book_name b) _) eqn:E; [|reflexivity].
    apply pystr_eqb_eq in E. contradiction.
Qed.

(** [PositiveIntegerWidget.clean] never returns a negative integer. *)
Theorem positive_integer_clean_nonneg (v : pyval) (db db' : DB) (z : Z) :
  positive_integer_clean v db = (inr (Some z), db') -> 0 <= z.
Proof.
  unfold positive_integer_clean, positive_integer_clean_with, bind.
  destruct (integer_clean_with py_int_decimal v db) as [[e|[z'|]] db1]; try discriminate.
  destruct (z' <? 0) eqn:E; unfold raise, ret; intros H; [discriminate|].
  injection H as <- _. apply Z.ltb_ge in E. exact E.
Qed.

Lemma positive_integer_clean_nonneg_witness :
  positive_integer_clean (PyStr (of_ascii "15")) empty_db = (inr (Some 15), empty_db)
  /\ 0 <= 15.
Proof.
  split; [reflexivity|].
  exact (positive_integer_clean_nonneg (PyStr (of_ascii "15")) empty_db empty_db 15 eq_refl).
Defined.

(** [before_import_row] succeeds exactly on rows whose [name] is a
    non-empty [str] with a UTF-8 encoding; a non-[str] name (e.g. a
    spreadsheet number) or an empty one fails. *)
Theorem before_import_row_ok_iff (row : Row) :
  (exists r', before_import_row row = inr r')
  <-> exists s bytes, row_get "name" row = Some (PyStr s) /\ s <> [] /\ utf8_encode s = Some bytes.
Proof.
  unfold before_import_row. split.
  - intros [r' H]. destruct (row_get "name" row) as [v|]; [|discriminate].
    destruct (truthy v) eqn:Ht; [|discriminate].
    destruct v as [|s|z]; try discriminate.
    destruct (utf8_encode s) as [bs|] eqn:E; [|discriminate].
    exists s, bs. split; [reflexivity|]. split; [|exact E].
    intros ->. discriminate Ht.
  - intros (s & bs & -> & Hs & Hb).
    destruct s as [|c s]; [congruence|]. cbn [truthy]. rewrite Hb. eexists; reflexivity.
Qed.

(** [before_import_row] changes only the [hash_id] column. *)
Theorem before_import_row_keeps_other_columns (row row' : Row) (k : string) :
  before_import_row row = inr row' -> k <> "hash_id" -> row_get k row' = row_get k row.
Proof.
  unfold before_import_row. intros H Hk.
  destruct (row_get "name" row) as [v|]; [|discriminate].
  destruct (truthy v); [|discriminate].
  destruct v as [| s |]; try discriminate.
  destruct (utf8_encode s); [|discriminate].
  injection H as <-. apply row_get_row_set_other. exact Hk.
Qed.

Lemma before_import_row_keeps_other_columns_witness :
  exists r', before_import_row dune_row = inr r'
    /\ row_get "price" r' = row_get "price" dune_row.
Proof.
  eexists. split; [reflexivity|].
  apply (before_import_row_keeps_other_columns dune_row); [reflexivity | discriminate].
Defined.

(** *** Shape of the SHA-256 hex digest *)

Lemma be_bytes_length (n : nat) (x : Z) : List.length (Sha256.be_bytes n x) = n.
Proof.
  revert x; induction n as [|n IH]; intros x; simpl; [reflexivity|].
  rewrite length_app, IH. simpl. lia.
Qed.

Lemma land_255_range (x : Z) : 0 <= Z.land x 255 <= 255.
Proof.
  assert (E : Z.land x 255 = x mod 256) by (apply (Z.land_ones x 8); lia).
  rewrite E. pose proof (Z.mod_pos_bound x 256 ltac:(reflexivity)). lia.
Qed.

Lemma be_bytes_range (n : nat) (x : Z) :
  Forall (fun b => 0 <= b <= 255) (Sha256.be_bytes n x).
Proof.
  revert x; induction n as [|n IH]; intros x; simpl; [constructor|].
  apply Forall_app; split; [apply IH | constructor; [apply land_255_range | constructor]].
Qed.

Lemma round_length (st : list Z) (kw : Z * Z) :
  List.length st = 8%nat -> List.length (Sha256.round st kw) = 8%nat.
Proof.
  intros H. unfold Sha256.round.
  do 8 (destruct st as [|? st]; [discriminate H|]).
  destruct st; [reflexivity | discriminate H].
Qed.

Lemma fold_round_length (kws : list (Z * Z)) (st : list Z) :
  List.length st = 8%nat -> List.length (fold_left Sha256.round kws st) = 8%nat.
Proof.
  revert st; induction kws as [|kw kws IH]; intros st H; simpl; [exact H|].
  apply IH, round_length, H.
Qed.

Lemma fold_compress_length (bs : list (list Z)) (st : list Z) :
  List.length st = 8%nat -> List.length (fold_left Sha256.compress bs st) = 8%nat.
Proof.
  revert st; induction bs as [|b bs IH]; intros st H; simpl; [exact H|].
  apply IH. unfold Sha256.compress.
  rewrite length_map, length_combine, fold_round_length by exact H. lia.
Qed.

Lemma length_flat_map_be_bytes (l : list Z) :
  List.length (flat_map (Sha256.be_bytes 4) l) = (4 * List.length l)%nat.
Proof.
  induction l as [|x l IH]; cbn [flat_map]; [reflexivity|].
  rewrite length_app, be_bytes_length, IH. cbn [List.length]. lia.
Qed.

Lemma digest_length (msg : list Z) : List.length (Sha256.digest msg) = 32%nat.
Proof.
  unfold Sha256.digest. rewrite length_flat_map_be_bytes, fold_compress_length; [reflexivity|].
  vm_compute. reflexivity.
Qed.

Lemma digest_range (msg : list Z) : Forall (fun b => 0 <= b <= 255) (Sha256.digest msg).
Proof.
  unfold Sha256.digest. apply Forall_forall. intros b Hb.
  apply in_flat_map in Hb as (w & _ & Hw).
  exact (proj1 (Forall_forall _ _) (be_bytes_range 4 w) b Hw).
Qed.

Lemma hex_nibble_range (n : Z) :
  0 <= n <= 15 ->
  (48 <= Sha256.hex_nibble n <= 57) \/ (97 <= Sha256.hex_nibble n <= 102).
Proof.
  intros H. unfold Sha256.hex_nibble. destruct (Z.ltb_spec n 10); lia.
Qed.

Lemma hex_pairs_shape (l : list Z) :
  Forall (fun b => 0 <= b <= 255) l ->
  List.length (flat_map (fun b => [Sha256.hex_nibble (Z.shiftr b 4);
                                   Sha256.hex_nibble (Z.land b 15)]) l) = (2 * List.length l)%nat
  /\ Forall (fun c => (48 <= c <= 57) \/ (97 <= c <= 102))
       (flat_map (fun b => [Sha256.hex_nibble (Z.shiftr b 4);
                            Sha256.hex_nibble (Z.land b 15)]) l).
Proof.
  induction 1 as [|b l Hb _ [IHl IHf]]; simpl; [split; [reflexivity | constructor]|].
  split; [rewrite IHl; lia|].
  constructor; [|constructor; [|exact IHf]]; apply hex_nibble_range.
  - assert (E : Z.shiftr b 4 = b / 16) by (rewrite Z.shiftr_div_pow2 by lia; reflexivity).
    rewrite E. split; [apply Z.div_pos; lia|].
    assert (b / 16 < 16) by (apply Z.div_lt_upper_bound; lia). lia.
  - assert (E : Z.land b 15 = b mod 16) by (apply (Z.land_ones b 4); lia).
    rewrite E. pose proof (Z.mod_pos_bound b 16 ltac:(reflexivity)). lia.
Qed.

Lemma hexdigest_shape (msg : list Z) :
  List.length (Sha256.hexdigest msg) = 64%nat
  /\ Forall (fun c => (48 <= c <= 57) \/ (97 <= c <= 102)) (Sha256.hexdigest msg).
Proof.
  unfold Sha256.hexdigest.
  destruct (hex_pairs_shape (Sha256.digest msg) (digest_range msg)) as [Hl Hf].
  rewrite Hl, digest_length. split; [reflexivity | exact Hf].
Qed.

(** [before_import_row] always stores in [hash_id] a 64-character
    lowercase hexadecimal string. *)
Theorem hash_id_is_hex64 (row row' : Row) :
  before_import_row row = inr row' ->
  exists h, row_get "hash_id" row' = Some (PyStr h) /\ List.length h = 64%nat
    /\ Forall (fun c => (48 <= c <= 57) \/ (97 <= c <= 102)) h.
Proof.
  unfold before_import_row. intros H.
  destruct (row_get "name" row) as [v|]; [|discriminate].
  destruct (truthy v); [|discriminate].
  destruct v as [| s |]; try discriminate.
  destruct (utf8_encode s) as [bs|]; [|discriminate].
  injection H as <-. exists (Sha256.hexdigest bs).
  rewrite row_get_row_set_same. split; [reflexivity | apply hexdigest_shape].
Qed.

Lemma hash_id_is_hex64_witness :
  exists r' h, before_import_row dune_row = inr r'
    /\ row_get "hash_id" r' = Some (PyStr h) /\ List.length h = 64%nat
    /\ Forall (fun c => (48 <= c <= 57) \/ (97 <= c <= 102)) h.
Proof.
  destruct (hash_id_is_hex64 dune_row _ eq_refl) as (h & Hh).
  eexists _, h. split; [reflexivity | exact Hh].
Defined.

(** [before_import]: a dataset without headers makes it raise
    [TypeError].  Otherwise the headers afterwards contain ["hash_id"]:
    the original headers are kept in order, with ["hash_id"] appended only
    when it was absent, and running it again changes nothing more. *)
Theorem before_import_adds_hash_id_once (headers : option (list string)) :
  (headers = None -> before_import headers = inl TypeError)
  /\ (forall hs, headers = Some hs ->
        exists hs', before_import headers = inr hs'
          /\ In "hash_id" hs'
          /\ (In "hash_id" hs -> hs' = hs)
          /\ (~ In "hash_id" hs -> hs' = hs ++ ["hash_id"])
          /\ before_import (Some hs') = inr hs').
Proof.
  assert (Hin : forall h, existsb (String.eqb "hash_id") h = true <-> In "hash_id" h).
  { intros h. rewrite existsb_exists. split.
    - intros (x & Hx & E). apply String.eqb_eq in E. subst x. exact Hx.
    - intros Hh. exists "hash_id". split; [exact Hh | apply String.eqb_refl]. }
  split; [intros ->; reflexivity|].
  intros hs ->. unfold before_import.
  destruct (existsb (String.eqb "hash_id") hs) eqn:E.
  - exists hs. apply Hin in E. rewrite (proj2 (Hin hs) E).
    repeat split; auto. intros Hn. contradiction.
  - exists (hs ++ ["hash_id"]).
    assert (Hn : ~ In "hash_id" hs) by (rewrite <- Hin, E; discriminate).
    assert (Ha : In "hash_id" (hs ++ ["hash_id"])) by (apply in_or_app; right; left; reflexivity).
    rewrite (proj2 (Hin _) Ha). repeat split; auto. intros Hh. contradiction.
Qed.

(** [for_delete] asks for deletion exactly when the row's ["delete"] cell
    is the string ["1"]: a missing cell, the integer [1] or ["1 "] do
    not delete. *)
Theorem for_delete_iff (row : Row) :
  for_delete row = true <-> row_get "delete" row = Some (PyStr (of_ascii "1")).
Proof.
  unfold for_delete. destruct (row_get "delete" row) as [[|s|z]|]; simpl;
    try (split; [discriminate | intros H; discriminate H]).
  rewrite pystr_eqb_eq. split; [intros ->; reflexivity | intros H; injection H; auto].
Qed.

(** [filter_export] keeps the queryset's books of the given author, or
    every book when no (or a falsy) author id was given. *)
Theorem filter_export_members (author_id : option Z) (qs : list Book) (b : Book) :
  In b (filter_export author_id qs)
  <-> In b qs /\ forall a, author_id = Some a -> a <> 0 -> book_author b = Some a.
Proof.
  unfold filter_export. destruct author_id as [a|].
  - destruct (Z.eqb_spec a 0) as [->|Ha]; simpl.
    + split; [intros H; split; [exact H | intros a' E Hne; injection E as <-; contradiction]
             | intros [H _]; exact H].
    + rewrite filter_In. split.
      * intros [H E]. split; [exact H|]. intros a' Ea _. injection Ea as <-.
        destruct (book_author b) as [x|]; [|discriminate]. apply Z.eqb_eq in E. subst; reflexivity.
      * intros [H Hb]. split; [exact H|]. rewrite (Hb a eq_refl Ha). apply Z.eqb_refl.
  - split; [intros H; split; [exact H | discriminate] | intros [H _]; exact H].
Qed.

(** ** [get_instance] *)

(** A book found by [get_instance] is in the table, has the row's
    (non-empty) name, and is the only book with that name. *)
Theorem get_instance_found (books : list Book) (row : Row) (b : Book) :
  get_instance books row = inr (Some b) ->
  exists v, row_get "name" row = Some v /\ truthy v = true /\ In b books
    /\ book_name b = py_str v
    /\ forall b', In b' books -> book_name b' = py_str v -> b' = b.
Proof.
  unfold get_instance. intros H.
  destruct (row_get "name" row) as [v|]; [|discriminate H].
  destruct (truthy v) eqn:Ht; [|discriminate H].
  destruct (filter (fun b => pystr_eqb (book_name b) (py_str v)) books) as [|x [|y l]] eqn:E;
    try discriminate H.
  injection H as <-. exists v. split; [reflexivity|]. split; [exact Ht|].
  assert (Hx : In x (filter (fun b => pystr_eqb (book_name b) (py_str v)) books))
    by (rewrite E; left; reflexivity).
  apply filter_In in Hx as [Hin Hn]. apply pystr_eqb_eq in Hn.
  split; [exact Hin|]. split; [exact Hn|].
  intros b' Hb' Hn'.
  assert (Hb'' : In b' (filter (fun b => pystr_eqb (book_name b) (py_str v)) books))
    by (apply filter_In; split; [exact Hb' | apply pystr_eqb_eq; exact Hn']).
  rewrite E in Hb''. destruct Hb'' as [->|[]]; reflexivity.
Qed.

Lemma get_instance_found_witness :
  get_instance [dune_1965] dune_row = inr (Some dune_1965)
  /\ exists v, row_get "name" dune_row = Some v /\ truthy v = true /\ In dune_1965 [dune_1965]
    /\ book_name dune_1965 = py_str v
    /\ forall b', In b' [dune_1965] -> book_name b' = py_str v -> b' = dune_1965.
Proof.
  assert (H : get_instance [dune_1965] dune_row = inr (Some dune_1965)) by reflexivity.
  split; [exact H | exact (get_instance_found [dune_1965] dune_row dune_1965 H)].
Defined.

(** [get_instance] gives [None] (a new book) exactly when the row has no
    usable name or no book carries it. *)
Theorem get_instance_none_iff (books : list Book) (row : Row) :
  get_instance books row = inr None
  <-> forall v, row_get "name" row = Some v -> truthy v = true ->
      forall b, In b books -> book_name b <> py_str v.
Proof.
  unfold get_instance. destruct (row_get "name" row) as [v|].
  - destruct (truthy v) eqn:Ht.
    + destruct (filter (fun b => pystr_eqb (book_name b) (py_str v)) books) as [|x [|y l]] eqn:E.
      * split; [|reflexivity]. intros _ v' Ev' _ b Hb Hn.
        injection Ev' as Ev'. subst v'.
        assert (Hb' : In b (filter (fun b => pystr_eqb (book_name b) (py_str v)) books))
          by (apply filter_In; split; [exact Hb | apply pystr_eqb_eq; exact Hn]).
        rewrite E in Hb'. destruct Hb'.
      * split; [discriminate|]. intros H. exfalso.
        assert (Hx : In x (filter (fun b => pystr_eqb (book_name b) (py_str v)) books))
          by (rewrite E; left; reflexivity).
        apply filter_In in Hx as [Hin Hn]. apply pystr_eqb_eq in Hn.
        exact (H v eq_refl Ht x Hin Hn).
      * split; [discriminate|]. intros H. exfalso.
        assert (Hx : In x (filter (fun b => pystr_eqb (book_name b) (py_str v)) books))
          by (rewrite E; left; reflexivity).
        apply filter_In in Hx as [Hin Hn]. apply pystr_eqb_eq in Hn.
        exact (H v eq_refl Ht x Hin Hn).
    + split; [|reflexivity]. intros _ v' Ev' Ht'.
      injection Ev' as Ev'. subst v'. congruence.
  - split; [|reflexivity]. intros _ v' Ev'. discriminate Ev'.
Qed.

(** The only exception [get_instance] lets through is
    [MultipleObjectsReturned], raised exactly when two or more books carry
    the row's name. *)
Theorem get_instance_error_iff (books : list Book) (row : Row) (e : exn) :
  get_instance books row = inl e
  <-> e = MultipleObjectsReturned
      /\ exists v, row_get "name" row = Some v /\ truthy v = true
         /\ (2 <= List.length (filter (fun b => pystr_eqb (book_name b) (py_str v)) books))%nat.
Proof.
  unfold get_instance. destruct (row_get "name" row) as [v|].
  - destruct (truthy v) eqn:Ht.
    + destruct (filter (fun b => pystr_eqb (book_name b) (py_str v)) books) as [|x [|y l]] eqn:E.
      * split; [discriminate|]. intros [_ (v' & Ev' & _ & Hl)].
        injection Ev' as Ev'. subst v'. rewrite E in Hl. simpl in Hl. lia.
      * split; [discriminate|]. intros [_ (v' & Ev' & _ & Hl)].
        injection Ev' as Ev'. subst v'. rewrite E in Hl. simpl in Hl. lia.
      * split.
        -- intros H. injection H as <-. split; [reflexivity|].
           exists v. split; [reflexivity|]. split; [exact Ht|]. rewrite E. simpl. lia.
        -- intros [-> _]. reflexivity.
    + split; [discriminate|]. intros [_ (v' & Ev' & Ht' & _)].
      injection Ev' as Ev'. subst v'. congruence.
  - split; [discriminate|]. intros [_ (v' & Ev' & _)]. discriminate Ev'.
Qed.

(** ** The natural key of [Author] *)

Lemma filter_single_In {A} (f : A -> bool) (l : list A) (x : A) :
  List.length (filter f l) = 1%nat -> In x l -> f x = true -> filter f l = [x].
Proof.
  intros Hl Hx Hf.
  assert (Hin : In x (filter f l)) by (apply filter_In; auto).
  destruct (filter f l) as [|y [|z r]]; simpl in Hl; try discriminate Hl.
  destruct Hin as [->|[]]; reflexivity.
Qed.

(** [get_by_natural_key] on the [name] lookup, by the number of matches. *)
Lemma get_by_natural_key_eq (n : pystr) (db : DB) :
  get_by_natural_key n db =
  match filter (fun a => pystr_eqb (author_name a) n) (authors db) with
  | [a] => (inr a, db)
  | [] => (inl DoesNotExist, db)
  | _ => (inl MultipleObjectsReturned, db)
  end.
Proof.
  unfold get_by_natural_key, bind, author_all, author_filter, ret, qs_get.
  simpl. rewrite filter_author_name.
  destruct (filter _ (authors db)) as [|a [|b l]]; reflexivity.
Qed.

Lemma get_by_natural_key_unique (a : Author) (db : DB) :
  In a (authors db) -> count_authors_named (author_name a) db = 1%nat ->
  get_by_natural_key (author_name a) db = (inr a, db).
Proof.
  intros Ha Hc. unfold count_authors_named in Hc. rewrite get_by_natural_key_eq.
  rewrite (filter_single_In _ _ a Hc Ha (pystr_eqb_refl _)). reflexivity.
Qed.

(** [AuthorManager.get_by_natural_key] only reads the store; it raises
    [DoesNotExist] when no author has the name, [MultipleObjectsReturned]
    when several do, and otherwise returns an author of that name. *)
Theorem get_by_natural_key_outcomes (n : pystr) (db : DB) :
  snd (get_by_natural_key n db) = db
  /\ (fst (get_by_natural_key n db) = inl DoesNotExist <-> count_authors_named n db = 0%nat)
  /\ (fst (get_by_natural_key n db) = inl MultipleObjectsReturned
      <-> (2 <= count_authors_named n db)%nat)
  /\ (forall a, fst (get_by_natural_key n db) = inr a -> In a (authors db) /\ author_name a = n).
Proof.
  rewrite get_by_natural_key_eq. unfold count_authors_named.
  assert (Hin : forall a, In a (filter (fun a => pystr_eqb (author_name a) n) (authors db)) ->
                          In a (authors db) /\ author_name a = n).
  { intros a Ha. apply filter_In in Ha as [H1 H2]. apply pystr_eqb_eq in H2. auto. }
  revert Hin.
  destruct (filter (fun a => pystr_eqb (author_name a) n) (authors db)) as [|x [|y l]];
    intros Hin; cbn [fst snd List.length].
  - split; [reflexivity|]. split; [split; reflexivity|].
    split; [split; [discriminate | lia]|]. intros a H; discriminate H.
  - split; [reflexivity|]. split; [split; [discriminate | lia]|].
    split; [split; [discriminate | lia]|].
    intros a H. injection H as <-. apply Hin. left; reflexivity.
  - split; [reflexivity|]. split; [split; [discriminate | lia]|].
    split; [split; [intros _; lia | reflexivity]|]. intros a H; discriminate H.
Qed.

(** Round trip: an author that is the only one with its name is found
    again by [get_by_natural_key] applied to its [natural_key]. *)
Theorem natural_key_round_trip (a : Author) (db : DB) :
  In a (authors db) -> count_authors_named (author_name a) db = 1%nat ->
  get_by_natural_key (hd [] (natural_key a)) db = (inr a, db).
Proof.
  intros Ha Hc. cbn [natural_key hd]. exact (get_by_natural_key_unique a db Ha Hc).
Qed.

Lemma natural_key_round_trip_witness :
  In (mkAuthor 2 NA) (authors (mkDB [mkAuthor 1 frank_herbert; mkAuthor 2 NA] 3 []))
  /\ count_authors_named (author_name (mkAuthor 2 NA))
       (mkDB [mkAuthor 1 frank_herbert; mkAuthor 2 NA] 3 []) = 1%nat
  /\ get_by_natural_key (hd [] (natural_key (mkAuthor 2 NA)))
       (mkDB [mkAuthor 1 frank_herbert; mkAuthor 2 NA] 3 [])
     = (inr (mkAuthor 2 NA), mkDB [mkAuthor 1 frank_herbert; mkAuthor 2 NA] 3 []).
Proof.
  assert (Ha : In (mkAuthor 2 NA) (authors (mkDB [mkAuthor 1 frank_herbert; mkAuthor 2 NA] 3 [])))
    by (right; left; reflexivity).
  assert (Hc : count_authors_named (author_name (mkAuthor 2 NA))
                 (mkDB [mkAuthor 1 frank_herbert; mkAuthor 2 NA] 3 []) = 1%nat)
    by (vm_compute; reflexivity).
  split; [exact Ha|]. split; [exact Hc|]. exact (natural_key_round_trip _ _ Ha Hc).
Defined.

(** ** The [author] column *)

(** An empty author cell, with at most one ["NA"] author stored: the
    result is an ["NA"] author that is in the store afterwards, which
    either is unchanged or got exactly that author appended. *)
Lemma author_clean_empty_shape (w : AuthorForeignKeyWidget.t) (v : pyval) (db : DB) :
  truthy v = false -> (count_authors_named NA db <= 1)%nat ->
  exists a db', AuthorForeignKeyWidget.clean w v db = (inr (Some a), db') /\
    author_name a = NA /\ In a (authors db') /\ count_authors_named NA db' = 1%nat /\
    ((count_authors_named NA db = 1%nat /\ db' = db)
     \/ (count_authors_named NA db = 0%nat /\ authors db' = authors db ++ [a])).
Proof.
  intros Hv Hc. unfold AuthorForeignKeyWidget.clean. rewrite Hv. cbn [negb].
  unfold bind at 1. cbv beta iota. rewrite author_get_or_create_eq.
  unfold count_authors_named in *. fold NA.
  destruct (filter _ (authors db)) as [|a [|b l]] eqn:E; simpl in Hc.
  - eexists _, _; split; [reflexivity|]. simpl.
    rewrite filter_app, E. simpl. rewrite ?pystr_eqb_refl. simpl.
    split; [reflexivity|]. split; [apply in_or_app; right; left; reflexivity|].
    split; [reflexivity|]. right; split; reflexivity.
  - eexists _, _; split; [reflexivity|].
    assert (Ha : In a (filter (fun a => pystr_eqb (author_name a) NA) (authors db)))
      by (rewrite E; left; reflexivity).
    apply filter_In in Ha as [Hin Ha]. apply pystr_eqb_eq in Ha.
    rewrite ?E. split; [exact Ha|]. split; [exact Hin|]. split; [reflexivity|].
    left; split; reflexivity.
  - lia.
Qed.

(** Composition: the author an empty cell resolves to is the one the
    natural key ["NA"] finds in the store the widget leaves. *)
Theorem author_clean_empty_then_natural_key (w : AuthorForeignKeyWidget.t) (v : pyval) (db : DB) :
  truthy v = false -> (count_authors_named NA db <= 1)%nat ->
  exists a db', AuthorForeignKeyWidget.clean w v db = (inr (Some a), db')
    /\ natural_key a = [NA]
    /\ get_by_natural_key NA db' = (inr a, db').
Proof.
  intros Hv Hc.
  destruct (author_clean_empty_shape w v db Hv Hc) as (a & db' & E & Ha & Hin & H1 & _).
  exists a, db'. split; [exact E|]. split; [unfold natural_key; rewrite Ha; reflexivity|].
  rewrite <- Ha. apply get_by_natural_key_unique; [exact Hin | rewrite Ha; exact H1].
Qed.

Lemma author_clean_empty_then_natural_key_witness :
  truthy PyNone = false /\ (count_authors_named NA empty_db <= 1)%nat
  /\ exists a db', AuthorForeignKeyWidget.clean (AuthorForeignKeyWidget.mk (PyInt 1)) PyNone empty_db
                   = (inr (Some a), db')
    /\ natural_key a = [NA]
    /\ get_by_natural_key NA db' = (inr a, db').
Proof.
  assert (Hv : truthy PyNone = false) by reflexivity.
  assert (Hc : (count_authors_named NA empty_db <= 1)%nat) by (vm_compute; lia).
  split; [exact Hv|]. split; [exact Hc|].
  exact (author_clean_empty_then_natural_key (AuthorForeignKeyWidget.mk (PyInt 1)) PyNone empty_db Hv Hc).
Defined.

(** A batch of author cells of any mix: a non-empty cell fails with
    [FieldError] on [publisher_id], an empty one resolves to an ["NA"]
    author; the only author the batch can ever add is one ["NA"], and only
    when there was none. *)
Theorem clean_author_column_outcomes (w : AuthorForeignKeyWidget.t) (cells : list pyval) (db : DB) :
  (count_authors_named NA db <= 1)%nat ->
  Forall2 (fun v r => (truthy v = true /\ r = inl (FieldError "publisher_id"))
                      \/ (truthy v = false /\ exists a, r = inr (Some a) /\ author_name a = NA))
          cells (fst (clean_author_column w cells db))
  /\ (authors (snd (clean_author_column w cells db)) = authors db
      \/ (count_authors_named NA db = 0%nat /\ exists a, author_name a = NA /\
          authors (snd (clean_author_column w cells db)) = authors db ++ [a])).
Proof.
  revert db. induction cells as [|v cells IH]; intros db Hc; simpl.
  - split; [constructor | left; reflexivity].
  - destruct (truthy v) eqn:Hv.
    + rewrite author_clean_nonempty by exact Hv.
      destruct (IH db Hc) as [Hr Hs].
      destruct (clean_author_column w cells db) as [rs db2] eqn:Ecol; simpl in *.
      split; [constructor; [left; auto | exact Hr] | exact Hs].
    + destruct (author_clean_empty_shape w v db Hv Hc) as (a & db1 & E & Ha & _ & H1 & Hcase).
      rewrite E.
      destruct (IH db1 ltac:(lia)) as [Hr Hs].
      destruct (clean_author_column w cells db1) as [rs db2] eqn:Ecol; simpl in *.
      split; [constructor; [right; eauto | exact Hr]|].
      destruct Hcase as [[Hc1 ->] | [Hc0 Hauth]].
      * exact Hs.
      * right. split; [exact Hc0|]. exists a. split; [exact Ha|].
        destruct Hs as [Hs | [Hz _]]; [rewrite Hs; exact Hauth | lia].
Qed.

Lemma clean_author_column_outcomes_witness :
  (count_authors_named NA empty_db <= 1)%nat
  /\ Forall2 (fun v r => (truthy v = true /\ r = inl (FieldError "publisher_id"))
                      \/ (truthy v = false /\ exists a, r = inr (Some a) /\ author_name a = NA))
          [PyStr []; PyStr frank_herbert; PyNone]
          (fst (clean_author_column (AuthorForeignKeyWidget.mk (PyInt 1))
                  [PyStr []; PyStr frank_herbert; PyNone] empty_db))
  /\ (authors (snd (clean_author_column (AuthorForeignKeyWidget.mk (PyInt 1))
                      [PyStr []; PyStr frank_herbert; PyNone] empty_db)) = authors empty_db
      \/ (count_authors_named NA empty_db = 0%nat /\ exists a, author_name a = NA /\
          authors (snd (clean_author_column (AuthorForeignKeyWidget.mk (PyInt 1))
                          [PyStr []; PyStr frank_herbert; PyNone] empty_db))
          = authors empty_db ++ [a])).
Proof.
  assert (Hc : (count_authors_named NA empty_db <= 1)%nat) by (vm_compute; lia).
  split; [exact Hc|].
  exact (clean_author_column_outcomes (AuthorForeignKeyWidget.mk (PyInt 1))
           [PyStr []; PyStr frank_herbert; PyNone] empty_db Hc).
Defined.

(** ** The import form's author *)

(** With a validated import form, [after_init_instance] on the kwargs
    [get_import_data_kwargs] prepared assigns the form's author to the
    book, whatever ["author"] the kwargs carried before; a form without an
    author, or with [None], clears the book's author; any other value
    (an integer, a form, ...) raises [ValueError]. *)
Theorem import_form_author_assigned (kwargs : Kwargs) (cd : list (string * KwVal))
    (instance : Book) :
  kw_get "form" kwargs = Some (KwForm (Some cd)) ->
  (forall a, kw_get "author" cd = Some (KwAuthor a) ->
     after_init_instance instance (get_import_data_kwargs kwargs)
     = inr (mkBook (book_name instance) (Some (author_id a)) (book_author_email instance)
                   (book_imported instance) (book_published instance) (book_price instance)))
  /\ ((kw_get "author" cd = None \/ kw_get "author" cd = Some KwNone) ->
     after_init_instance instance (get_import_data_kwargs kwargs)
     = inr (mkBook (book_name instance) None (book_author_email instance)
                   (book_imported instance) (book_published instance) (book_price instance)))
  /\ (forall x, kw_get "author" cd = Some x -> x <> KwNone -> (forall a, x <> KwAuthor a) ->
     exists msg, after_init_instance instance (get_import_data_kwargs kwargs) = inl (ValueError msg)).
Proof.
  intros Hf. unfold get_import_data_kwargs. rewrite Hf. cbv iota.
  unfold after_init_instance.
  split; [|split].
  - intros a H. rewrite H, kw_get_kw_set_same. reflexivity.
  - intros [H|H]; rewrite H, kw_get_kw_set_same; reflexivity.
  - intros x H Hn Ha. rewrite H, kw_get_kw_set_same.
    destruct x as [| a | f | z |]; [contradiction | exfalso; exact (Ha a eq_refl) | ..];
      eexists; reflexivity.
Qed.

Lemma import_form_author_assigned_witness :
  kw_get "form" [("form", KwForm (Some [("author", KwAuthor (mkAuthor 7 frank_herbert))]));
                 ("author", KwNone)]
  = Some (KwForm (Some [("author", KwAuthor (mkAuthor 7 frank_herbert))]))
  /\ after_init_instance dune_1965
       (get_import_data_kwargs
          [("form", KwForm (Some [("author", KwAuthor (mkAuthor 7 frank_herbert))]));
           ("author", KwNone)])
     = inr (mkBook (book_name dune_1965) (Some 7) (book_author_email dune_1965)
                   (book_imported dune_1965) (book_published dune_1965) (book_price dune_1965)).
Proof.
  assert (Hf : kw_get "form" [("form", KwForm (Some [("author", KwAuthor (mkAuthor 7 frank_herbert))]));
                              ("author", KwNone)]
               = Some (KwForm (Some [("author", KwAuthor (mkAuthor 7 frank_herbert))])))
    by reflexivity.
  split; [exact Hf|].
  exact (proj1 (import_form_author_assigned _ _ dune_1965 Hf) (mkAuthor 7 frank_herbert) eq_refl).
Defined.

(** ** The export form's author *)

Lemma kw_get_kw_set_other (k k' : string) (v : KwVal) (d : Kwargs) :
  k' <> k -> kw_get k' (kw_set k v d) = kw_get k' d.
Proof.
  intros Hk. induction d as [|[k0 v0] d IH]; simpl.
  - apply String.eqb_neq in Hk. rewrite Hk. reflexivity.
  - destruct (String.eqb k k0) eqn:E; simpl.
    + apply String.eqb_eq in E. subst k0. apply String.eqb_neq in Hk. rewrite Hk. reflexivity.
    + destruct (String.eqb k' k0); [reflexivity | exact IH].
Qed.

Lemma kw_get_some_key (k : string) (d : Kwargs) :
  kw_get k d <> None -> In k (map fst d).
Proof.
  induction d as [|[k0 v0] d IH]; simpl; [contradiction|].
  destruct (String.eqb k k0) eqn:E; intros H.
  - left. apply String.eqb_eq in E. symmetry; exact E.
  - right. exact (IH H).
Qed.

(** Export through the custom export form: the kwargs that
    [get_export_resource_kwargs] returns still carry ["export_form"], a
    keyword [BookResource.__init__] does not take, so building the
    resource raises [TypeError]; it is never built and its
    [filter_export] never runs. *)
Theorem export_resource_never_built (kwargs kw' : Kwargs) :
  kw_get "export_form" kwargs <> None ->
  get_export_resource_kwargs kwargs = inr kw' ->
  book_resource_init kw' = inl TypeError.
Proof.
  intros Hf H.
  assert (Hk : kw_get "export_form" kw' <> None).
  { unfold get_export_resource_kwargs in H.
    destruct (kw_get "export_form" kwargs) as [[| | [cd|] | |]|] eqn:E;
      try (injection H as <-; rewrite E; exact Hf).
    destruct (kw_get "author" cd) as [[| a | | |]|]; try discriminate H.
    injection H as <-. rewrite kw_get_kw_set_other by discriminate. rewrite E. exact Hf. }
  apply kw_get_some_key in Hk.
  unfold book_resource_init.
  destruct (forallb _ kw') eqn:Hall; [|reflexivity].
  exfalso. rewrite forallb_forall in Hall.
  apply in_map_iff in Hk as ([k v] & Ek & Hin). simpl in Ek. subst k.
  specialize (Hall _ Hin). simpl in Hall. discriminate Hall.
Qed.

Lemma export_resource_never_built_witness :
  kw_get "export_form" [("export_form", KwForm (Some [("author", KwAuthor (mkAuthor 1 frank_herbert))]))]
  <> None
  /\ get_export_resource_kwargs
       [("export_form", KwForm (Some [("author", KwAuthor (mkAuthor 1 frank_herbert))]))]
     = inr [("export_form", KwForm (Some [("author", KwAuthor (mkAuthor 1 frank_herbert))]));
            ("author_id", KwInt 1)]
  /\ book_resource_init
       [("export_form", KwForm (Some [("author", KwAuthor (mkAuthor 1 frank_herbert))]));
        ("author_id", KwInt 1)] = inl TypeError.
Proof.
  assert (Hf : kw_get "export_form"
                 [("export_form", KwForm (Some [("author", KwAuthor (mkAuthor 1 frank_herbert))]))]
               <> None) by discriminate.
  assert (Hg : get_export_resource_kwargs
                 [("export_form", KwForm (Some [("author", KwAuthor (mkAuthor 1 frank_herbert))]))]
               = inr [("export_form", KwForm (Some [("author", KwAuthor (mkAuthor 1 frank_herbert))]));
                      ("author_id", KwInt 1)]) by reflexivity.
  split; [exact Hf|]. split; [exact Hg|].
  exact (export_resource_never_built _ _ Hf Hg).
Defined.
